(** * gcontributor: the daily commit scheduler

    A shallow embedding of [gcontributor/Main.py], [gcontributor/DataAccess.py]
    and [gcontributor/Converter.py].

    [Main] is built from three injected collaborators (a converter, a
    commiter and a data accessor) and talks to two library objects
    ([datetime.date] and [schedule]).  Its methods are embedded as programs
    of a small free monad whose actions are exactly the calls [Main] makes;
    a handler gives the collaborators' behaviour on a world state, and the
    interpreter threads the world, stops at the first exception (Python
    propagates it, [Main] has no [try]) and records every call with its
    outcome. *)

From Stdlib Require Import ZArith List String Lia.
From stdpp Require Import base decidable countable gmap strings.

Local Open Scope string_scope.
Local Open Scope Z_scope.
Local Open Scope list_scope.

(** ** Python values *)

(** [datetime.date]: a calendar day without a time component. *)
Record date : Type := Date { year : Z; month : Z; day : Z }.

#[global] Instance date_eq_dec : EqDecision date.
Proof. solve_decision. Defined.

#[global] Instance date_countable : Countable date.
Proof.
  refine (inj_countable' (fun d => (year d, month d, day d))
                         (fun t => Date t.1.1 t.1.2 t.2) _).
  intros []; reflexivity.
Defined.

(** [gcontributor.CustTypes.CommitDict]; the module is not part of the
    sources, the docstring of [IConverter.convert] gives its shape: "a dict
    with keys being the dates to integers being the number of commits". *)
Abbreviation CommitDict := (gmap date Z).

(** Modelled from the spec: [gcontributor/Commiter.py] is not part of the
    sources.  Section 4.3 gives [perform(count: int) -> Result], which
    "returns success/failure". *)
Inductive Result : Type := Success | Failure.

(** The exceptions that occur in the development. *)
Inductive exn : Type :=
| TypeError
| AttributeError
| NotImplementedError
| Error (name : string).

(** The values that flow between [Main] and its collaborators. *)
Inductive value : Type :=
| VNone
| VBool (b : bool)
| VInt (n : Z)
| VStr (s : string)
| VDate (d : date)
| VDict (p : CommitDict)
| VResult (r : Result)
| VSelf                       (* the [Main] instance *)
| VBoundMethod (name : string) (* [self.<name>] *)
| VObject (id : N).           (* any other object, e.g. a [schedule.Job] *)

(** Python truth value testing, as used by [if] and [not]. *)
Definition truthy (v : value) : bool :=
  match v with
  | VNone => false
  | VBool b => b
  | VInt n => negb (Z.eqb n 0)
  | VStr s => negb (String.eqb s "")
  | VDict p => negb (bool_decide (p = ∅))
  | VDate _ | VResult _ | VSelf | VBoundMethod _ | VObject _ => true
  end.

(** How a call ends: it returns a value or raises. *)
Inductive outcome (A : Type) : Type :=
| Returned (a : A)
| Raised (e : exn).
Arguments Returned {A} a.
Arguments Raised {A} e.

(** ** The calls [Main] makes *)

(** The methods of [DataAccess]. *)
Inductive DataAccess_method : Type :=
| m_createDict | m_readDate | m_getStatus | m_hasRun | m_logRun.

Inductive call : Type :=
| date_today                                            (* datetime.date.today() *)
| data_accesor (m : DataAccess_method) (args : list value) (* self._data_accesor.m( *args ) *)
| converter_convert (args : list value)                 (* self._converter.convert( *args ) *)
| commiter_commit (args : list value)                   (* self._commiter.commit( *args ) *)
| schedule_every                                        (* schedule.every() *)
| getattr (o : value) (name : string)                   (* o.name *)
| method (o : value) (name : string) (args : list value). (* o.name( *args ) *)

(** ** Programs *)

Inductive prog (A : Type) : Type :=
| Ret (a : A)
| Do (c : call) (k : value -> prog A).
Arguments Ret {A} a.
Arguments Do {A} c k.

Fixpoint bind {A B} (p : prog A) (f : A -> prog B) : prog B :=
  match p with
  | Ret a => f a
  | Do c k => Do c (fun v => bind (k v) f)
  end.

Definition perform (c : call) : prog value := Do c Ret.

Notation "x <- p ;; q" := (bind p (fun x => q))
  (at level 100, p at next level, right associativity).
Notation "p ;; q" := (bind p (fun _ => q))
  (at level 100, right associativity).

(** ** Executions *)

(** One recorded call together with how it ended. *)
Definition event : Type := call * outcome value.
Definition trace : Type := list event.

(** The behaviour of everything outside [Main], on a world state [W]. *)
Definition handler (W : Type) : Type := call -> W -> outcome value * W.

Record execution (W A : Type) : Type :=
  Execution { calls : trace; result : outcome A; final : W }.
Arguments Execution {W A} calls result final.
Arguments calls {W A} e.
Arguments result {W A} e.
Arguments final {W A} e.

Fixpoint exec {W A} (h : handler W) (p : prog A) (w : W) : execution W A :=
  match p with
  | Ret a => Execution [] (Returned a) w
  | Do c k =>
      match h c w with
      | (Returned v, w') =>
          let r := exec h (k v) w' in
          Execution ((c, Returned v) :: calls r) (result r) (final r)
      | (Raised e, w') => Execution [(c, Raised e)] (Raised e) w'
      end
  end.

(** ** [gcontributor/Main.py] *)

Module Main.

(** [self._schedule_time = "06:00"] *)
Definition _schedule_time : value := VStr "06:00".

Definition _runCommit : prog value :=
  today <- perform date_today ;;
  already <- perform (data_accesor m_hasRun [today]) ;;
  if truthy already then Ret VNone
  else
    commit_num <- perform (data_accesor m_readDate [today]) ;;
    perform (commiter_commit [commit_num]) ;;
    perform (data_accesor m_logRun [today]) ;;
    Ret VNone.

Definition setupPlan : prog value :=
  commit_plan <- perform (converter_convert []) ;;
  perform (data_accesor m_createDict [commit_plan]) ;;
  Ret VNone.

Definition run : prog value :=
  status <- perform (data_accesor m_getStatus []) ;;
  (if negb (truthy status) then setupPlan else Ret VNone) ;;
  ran <- perform (data_accesor m_hasRun []) ;;
  (if negb (truthy ran) then _runCommit else Ret VNone) ;;
  job <- perform schedule_every ;;
  every_day <- perform (getattr job "data") ;;
  at_job <- perform (method every_day "at" [_schedule_time]) ;;
  perform (method at_job "do" [VBoundMethod "_runCommit"; VSelf]) ;;
  Ret VNone.

End Main.

(** ** [gcontributor/DataAccess.py] *)

Module DataAccess.

(** The instance state set by [__init__]. *)
Record t : Type := { dbLocation : string }.

Definition __init__ (dbLocation : string) : t := {| dbLocation := dbLocation |}.

(** Every method body is [pass]: it returns [None] and leaves [self] as it is. *)
Definition createDict (self : t) (commits : value) : outcome value * t :=
  (Returned VNone, self).

Definition readDate (self : t) (date : value) : outcome value * t :=
  (Returned VNone, self).

Definition getStatus (self : t) : outcome value * t :=
  (Returned VNone, self).

Definition hasRun (self : t) (date : value) : outcome value * t :=
  (Returned VNone, self).

Definition logRun (self : t) (date : value) : outcome value * t :=
  (Returned VNone, self).

End DataAccess.

(** A class with the method signatures of [DataAccess] ([DataAccess] itself
    or a subclass that overrides bodies), on instance state [S]. *)
Record DataAccess_class (S : Type) : Type := {
  cls_createDict : S -> value -> outcome value * S;
  cls_readDate : S -> value -> outcome value * S;
  cls_getStatus : S -> outcome value * S;
  cls_hasRun : S -> value -> outcome value * S;
  cls_logRun : S -> value -> outcome value * S
}.
Arguments cls_createDict {S} _ _ _.
Arguments cls_readDate {S} _ _ _.
Arguments cls_getStatus {S} _ _.
Arguments cls_hasRun {S} _ _ _.
Arguments cls_logRun {S} _ _ _.

(** Calling a method of such a class with positional arguments: Python
    raises [TypeError] when their number does not fit the [def]. *)
Definition invoke {S} (cls : DataAccess_class S)
    (m : DataAccess_method) (args : list value) (self : S) : outcome value * S :=
  match m, args with
  | m_createDict, [commits] => cls_createDict cls self commits
  | m_readDate, [date] => cls_readDate cls self date
  | m_getStatus, [] => cls_getStatus cls self
  | m_hasRun, [date] => cls_hasRun cls self date
  | m_logRun, [date] => cls_logRun cls self date
  | _, _ => (Raised TypeError, self)
  end.

Definition DataAccess_stub : DataAccess_class DataAccess.t := {|
  cls_createDict := DataAccess.createDict;
  cls_readDate := DataAccess.readDate;
  cls_getStatus := DataAccess.getStatus;
  cls_hasRun := DataAccess.hasRun;
  cls_logRun := DataAccess.logRun
|}.

(** ** [gcontributor/Converter.py] *)

Module IConverter.

(** [convert(self, srcUri)]: abstract, raises [NotImplementedError]. *)
Definition convert (args : list value) : outcome value :=
  match args with
  | [srcUri] => Raised NotImplementedError
  | _ => Raised TypeError
  end.

End IConverter.

(** ** A data accessor that keeps a plan and a run log *)

(** Modelled from the spec: the bodies of [DataAccess] are empty, so the
    executions below that need a working store use this one, written from
    the PlanStore contract of section 4.1 ([isInitialized], [savePlan],
    [countFor], [hasRun], [markRun]) behind the signatures of [DataAccess]. *)
Module PlanStore.

Record t : Type := { plan : option CommitDict; run_log : gset date }.

Definition createDict (self : t) (commits : value) : outcome value * t :=
  match commits with
  | VDict p => (Returned VNone, {| plan := Some p; run_log := run_log self |})
  | _ => (Raised TypeError, self)
  end.

Definition countFor (self : t) (d : date) : Z :=
  match plan self with
  | Some p => default 0 (p !! d)
  | None => 0
  end.

Definition readDate (self : t) (date : value) : outcome value * t :=
  match date with
  | VDate d => (Returned (VInt (countFor self d)), self)
  | _ => (Raised TypeError, self)
  end.

Definition getStatus (self : t) : outcome value * t :=
  (Returned (VBool (match plan self with Some _ => true | None => false end)), self).

Definition hasRun (self : t) (date : value) : outcome value * t :=
  match date with
  | VDate d => (Returned (VBool (bool_decide (d ∈ run_log self))), self)
  | _ => (Raised TypeError, self)
  end.

Definition logRun (self : t) (date : value) : outcome value * t :=
  match date with
  | VDate d => (Returned VNone, {| plan := plan self; run_log := {[d]} ∪ run_log self |})
  | _ => (Raised TypeError, self)
  end.

Definition class : DataAccess_class t := {|
  cls_createDict := createDict;
  cls_readDate := readDate;
  cls_getStatus := getStatus;
  cls_hasRun := hasRun;
  cls_logRun := logRun
|}.

End PlanStore.

(** ** Environments *)

(** The behaviour of the two collaborators without state of their own and
    of the libraries, as functions of the call. *)
Record collaborators : Type := {
  today : date;                               (* what the clock shows *)
  convert : list value -> outcome value;      (* self._converter.convert *)
  commit : list value -> outcome value;       (* self._commiter.commit *)
  library : call -> outcome value             (* schedule and its jobs *)
}.

(** A handler from a data accessor class and the other collaborators; the
    world is the data accessor's state. *)
Definition environment {S} (cls : DataAccess_class S) (env : collaborators) : handler S :=
  fun c self =>
    match c with
    | date_today => (Returned (VDate (today env)), self)
    | data_accesor m args => invoke cls m args self
    | converter_convert args => (convert env args, self)
    | commiter_commit args => (commit env args, self)
    | _ => (library env c, self)
    end.

(** The [schedule] library is not part of the repository.  [every()] gives
    a job, whose time units are attributes ([day], [days], [hour], ...);
    [at] and [do] give the job back. *)
Definition job : value := VObject 1.

Definition job_units : list string :=
  ["second"; "seconds"; "minute"; "minutes"; "hour"; "hours"; "day"; "days";
   "week"; "weeks"; "monday"; "tuesday"; "wednesday"; "thursday"; "friday";
   "saturday"; "sunday"].

Definition schedule (c : call) : outcome value :=
  match c with
  | schedule_every => Returned job
  | getattr _ name =>
      if bool_decide (name ∈ job_units) then Returned job else Raised AttributeError
  | method _ _ _ => Returned job
  | _ => Raised TypeError
  end.

(** ** Observing a trace *)

Definition is_commit (c : call) : bool :=
  match c with commiter_commit _ => true | _ => false end.

Definition is_logRun (c : call) : bool :=
  match c with data_accesor m_logRun _ => true | _ => false end.

Definition is_convert (c : call) : bool :=
  match c with converter_convert _ => true | _ => false end.

Definition is_createDict (c : call) : bool :=
  match c with data_accesor m_createDict _ => true | _ => false end.

Definition is_today (c : call) : bool :=
  match c with date_today => true | _ => false end.

(** The calls on [schedule] and on the jobs it hands out: the registration
    of the daily trigger. *)
Definition is_schedule (c : call) : bool :=
  match c with schedule_every | getattr _ _ | method _ _ _ => true | _ => false end.

(** The events of a trace whose call satisfies [P]. *)
Definition called (P : call -> bool) (t : trace) : list event :=
  List.filter (fun ev => P (fst ev)) t.

Definition raises {A} (o : outcome A) : bool :=
  match o with Raised _ => true | Returned _ => false end.

(** ** Properties of programs and traces *)

(** A program that, whatever its calls answer, makes no call in [P]. *)
Fixpoint avoids {A} (P : call -> bool) (p : prog A) : Prop :=
  match p with
  | Ret _ => True
  | Do c k => P c = false /\ forall v, avoids P (k v)
  end.

(** An ordering of a trace of [_runCommit] on a day with planned count
    [count]: whenever [logRun] is called, either the day is a
    zero-count day or a call of [commit] has returned success before. *)
Definition logRun_only_after_success (count : Z) (t : trace) : Prop :=
  forall t1 ev t2,
    t = t1 ++ ev :: t2 -> is_logRun (fst ev) = true ->
    count = 0 \/ exists args, In (commiter_commit args, Returned (VResult Success)) t1.

(** What [run] does after the bootstrap step: the catch-up run and the
    registration of the trigger. *)
Definition after_bootstrap : prog value :=
  ran <- perform (data_accesor m_hasRun []) ;;
  (if negb (truthy ran) then Main._runCommit else Ret VNone) ;;
  job <- perform schedule_every ;;
  every_day <- perform (getattr job "data") ;;
  at_job <- perform (method every_day "at" [Main._schedule_time]) ;;
  perform (method at_job "do" [VBoundMethod "_runCommit"; VSelf]) ;;
  Ret VNone.

(** ** The scenarios of section 8 *)

Module Scenario.

Definition jan1 : date := Date 2024 1 1.
Definition jan2 : date := Date 2024 1 2.

(** Plan = {2024-01-01: 3, 2024-01-02: 0} *)
Definition commits : CommitDict := <[jan1 := 3]> (<[jan2 := 0]> ∅).

(** No plan yet. *)
Definition blank : PlanStore.t :=
  {| PlanStore.plan := None; PlanStore.run_log := ∅ |}.

(** The plan is stored, the run log is empty. *)
Definition fresh : PlanStore.t :=
  {| PlanStore.plan := Some commits; PlanStore.run_log := ∅ |}.

(** The plan is stored and 2024-01-01 has run. *)
Definition ran_jan1 : PlanStore.t :=
  {| PlanStore.plan := Some commits; PlanStore.run_log := {[jan1]} |}.

(** Three commiters: one reports success, one reports failure as its
    result, one raises. *)
Definition succeeds (args : list value) : outcome value := Returned (VResult Success).
Definition fails (args : list value) : outcome value := Returned (VResult Failure).
Definition crashes (args : list value) : outcome value := Raised (Error "CommitError").

(** Two converters: one produces the plan, one cannot reach its source. *)
Definition converts (args : list value) : outcome value := Returned (VDict commits).
Definition unreachable (args : list value) : outcome value := Raised (Error "SourceUnreachable").

(** [Main] wired to a [PlanStore], on day [d]. *)
Definition on (d : date) (convert commit : list value -> outcome value)
  : handler PlanStore.t :=
  environment PlanStore.class
    {| today := d; convert := convert; commit := commit; library := schedule |}.

(** A data accessor whose [createDict] cannot write its medium. *)
Definition read_only : DataAccess_class PlanStore.t := {|
  cls_createDict := fun self _ => (Raised (Error "StorageFailure"), self);
  cls_readDate := PlanStore.readDate;
  cls_getStatus := PlanStore.getStatus;
  cls_hasRun := PlanStore.hasRun;
  cls_logRun := PlanStore.logRun
|}.

Definition on_read_only (d : date) (convert commit : list value -> outcome value)
  : handler PlanStore.t :=
  environment read_only
    {| today := d; convert := convert; commit := commit; library := schedule |}.

End Scenario.

(** ** The rest of [Main.py] *)

(** [Main.__init__(self, converter, commiter, data_accessor)] called with
    positional arguments: the three collaborators are required, and the
    instance is returned once they and the schedule time are stored. *)
Definition Main__init__ (args : list value) : outcome value :=
  match args with
  | [converter; commiter; data_accessor] => Returned VSelf
  | _ => Raised TypeError
  end.

(** [main()]: [main = Main()], then [main.run()]. *)
Definition main {W} (h : handler W) (w : W) : execution W value :=
  match Main__init__ [] with
  | Returned _ => exec h Main.run w
  | Raised e => Execution [] (Raised e) w
  end.

(** The last statement of [run]:
    [schedule.every().data.at(self._schedule_time).do(self._runCommit, self)]. *)
Definition registration : prog value :=
  job <- perform schedule_every ;;
  every_day <- perform (getattr job "data") ;;
  at_job <- perform (method every_day "at" [Main._schedule_time]) ;;
  perform (method at_job "do" [VBoundMethod "_runCommit"; VSelf]) ;;
  Ret VNone.

Definition is_getStatus (c : call) : bool :=
  match c with data_accesor m_getStatus _ => true | _ => false end.

(** A program in which, once a call in [Q] is made, every later call is
    in [Q] as well. *)
Fixpoint then_only {A} (Q : call -> bool) (p : prog A) : Prop :=
  match p with
  | Ret _ => True
  | Do c k =>
      if Q c then forall v, avoids (fun c' => negb (Q c')) (k v)
      else forall v, then_only Q (k v)
  end.

(** A sequence of method calls on one data accessor, each with its
    positional arguments; the state they leave. *)
Fixpoint invoke_all {S} (cls : DataAccess_class S)
    (ops : list (DataAccess_method * list value)) (self : S) : S :=
  match ops with
  | [] => self
  | (m, args) :: ops => invoke_all cls ops (snd (invoke cls m args self))
  end.

(** ** A data accessor whose [hasRun] takes the date optionally *)

Module Mock.

(** [Main] wired as in [Scenario.on], except that [hasRun()] without a date
    is accepted and answers [ran]. *)
Definition on (ran : bool) (d : date) (convert commit : list value -> outcome value)
  : handler PlanStore.t :=
  fun c self =>
    match c with
    | data_accesor m_hasRun [] => (Returned (VBool ran), self)
    | _ => Scenario.on d convert commit c self
    end.

End Mock.

(** Modelled from the spec: the code defines no exception of its own.
    Section 7 names the kinds: [BootstrapFailure], with its sub-kinds
    [SourceUnreachable] and [MalformedSource], and apart from them
    [StorageFailure] and [ActionFailure]. *)
Definition is_BootstrapFailure (e : exn) : bool :=
  match e with
  | Error name =>
      bool_decide (name ∈ ["BootstrapFailure"; "SourceUnreachable"; "MalformedSource"])
  | _ => false
  end.

(** * Properties *)

(** ** The interpreter *)

Section Exec.

Context {W : Type} (h : handler W).

Lemma exec_Do_returned {A} c (k : value -> prog A) w v w' :
  h c w = (Returned v, w') ->
  exec h (Do c k) w =
    Execution ((c, Returned v) :: calls (exec h (k v) w'))
              (result (exec h (k v) w')) (final (exec h (k v) w')).
Proof. intros E. simpl. rewrite E. reflexivity. Qed.

Lemma exec_Do_raised {A} c (k : value -> prog A) w e w' :
  h c w = (Raised e, w') ->
  exec h (Do c k) w = Execution [(c, Raised e)] (Raised e) w'.
Proof. intros E. simpl. rewrite E. reflexivity. Qed.

(** Sequencing: the second program runs in the world the first one left,
    and only if the first one returned. *)
Lemma exec_bind {A B} (p : prog A) (f : A -> prog B) w :
  exec h (bind p f) w =
    match result (exec h p w) with
    | Returned a =>
        let r := exec h (f a) (final (exec h p w)) in
        Execution (calls (exec h p w) ++ calls r) (result r) (final r)
    | Raised e => Execution (calls (exec h p w)) (Raised e) (final (exec h p w))
    end.
Proof.
  revert w. induction p as [a | c k IH]; intros w.
  - simpl. destruct (exec h (f a) w); reflexivity.
  - simpl. destruct (h c w) as [[v | e] w']; [| reflexivity].
    rewrite IH. simpl. destruct (result (exec h (k v) w')); reflexivity.
Qed.

(** A program raises only what one of its calls raised, and that call is
    the last one of the trace. *)
Lemma exec_raised_last {A} (p : prog A) w e :
  result (exec h p w) = Raised e ->
  exists t c, calls (exec h p w) = t ++ [(c, Raised e)].
Proof.
  revert w. induction p as [a | c k IH]; intros w; simpl.
  - discriminate.
  - destruct (h c w) as [[v | e'] w']; simpl.
    + intros R. destruct (IH v w' R) as (t & c' & ->).
      exists ((c, Returned v) :: t), c'. reflexivity.
    + intros [= ->]. exists [], c. reflexivity.
Qed.

(** Every call before the last one of a trace returned. *)
Lemma exec_returned_prefix {A} (p : prog A) w t ev t' :
  calls (exec h p w) = t ++ ev :: t' -> t' <> [] -> raises (snd ev) = false.
Proof.
  revert w t. induction p as [a | c k IH]; intros w t; simpl.
  - destruct t; discriminate.
  - destruct (h c w) as [[v | e] w']; simpl.
    + destruct t as [| ev0 t]; simpl.
      * intros [= <- _] _. reflexivity.
      * intros [= _ E]. eapply IH, E.
    + destruct t as [| ev0 t]; simpl; intros E Hne.
      * inversion E; subst. contradiction Hne; reflexivity.
      * inversion E as [[E0 E']]. destruct t; discriminate.
Qed.

(** A frame rule: an observation of the world that only the calls in [P]
    can change is unchanged by a run that makes no call in [P]. *)
Lemma exec_frame {A X} (P : call -> bool) (obs : W -> X) (p : prog A) w :
  (forall c w0, P c = false -> obs (snd (h c w0)) = obs w0) ->
  called P (calls (exec h p w)) = [] ->
  obs (final (exec h p w)) = obs w.
Proof.
  intros Hframe. revert w. induction p as [a | c k IH]; intros w; simpl.
  - reflexivity.
  - pose proof (Hframe c w) as Hc.
    destruct (h c w) as [[v | e] w']; unfold called; simpl;
      destruct (P c) eqn:EP; try discriminate; intros Hn.
    + rewrite (IH v w' Hn). apply Hc. reflexivity.
    + apply Hc. reflexivity.
Qed.

End Exec.

Lemma called_app P (t1 t2 : trace) :
  called P (t1 ++ t2) = called P t1 ++ called P t2.
Proof. apply List.filter_app. Qed.

(** Case analysis on the outcome of the next call of the handler [h]. *)
Ltac next_call h :=
  match goal with
  | |- context [h ?c ?w] =>
      let E := fresh "Hcall" in
      destruct (h c w) as [[?v | ?e] ?w] eqn:E; simpl
  end.

(** ** [Main._runCommit] *)

Section RunCommit.

Context {W : Type} (h : handler W).

(** The three ways [_runCommit] can go once the clock and [hasRun] have
    answered. *)
Lemma runCommit_already_run w today w1 already w2 :
  h date_today w = (Returned today, w1) ->
  h (data_accesor m_hasRun [today]) w1 = (Returned already, w2) ->
  truthy already = true ->
  exec h Main._runCommit w =
    Execution [(date_today, Returned today);
               (data_accesor m_hasRun [today], Returned already)]
              (Returned VNone) w2.
Proof.
  intros H1 H2 T. unfold Main._runCommit, perform. simpl.
  rewrite H1. simpl. rewrite H2. simpl. rewrite T. reflexivity.
Qed.

Lemma runCommit_commit_returned w today w1 already w2 commit_num w3 r w4 :
  h date_today w = (Returned today, w1) ->
  h (data_accesor m_hasRun [today]) w1 = (Returned already, w2) ->
  truthy already = false ->
  h (data_accesor m_readDate [today]) w2 = (Returned commit_num, w3) ->
  h (commiter_commit [commit_num]) w3 = (Returned r, w4) ->
  exec h Main._runCommit w =
    Execution ([(date_today, Returned today);
                (data_accesor m_hasRun [today], Returned already);
                (data_accesor m_readDate [today], Returned commit_num);
                (commiter_commit [commit_num], Returned r);
                (data_accesor m_logRun [today],
                 fst (h (data_accesor m_logRun [today]) w4))])
              (match fst (h (data_accesor m_logRun [today]) w4) with
               | Returned _ => Returned VNone
               | Raised e => Raised e
               end)
              (snd (h (data_accesor m_logRun [today]) w4)).
Proof.
  intros H1 H2 T H3 H4. unfold Main._runCommit, perform. simpl.
  rewrite H1. simpl. rewrite H2. simpl. rewrite T. simpl.
  rewrite H3. simpl. rewrite H4. simpl.
  destruct (h (data_accesor m_logRun [today]) w4) as [[u | e] w5]; reflexivity.
Qed.

Lemma runCommit_commit_raised w today w1 already w2 commit_num w3 e w4 :
  h date_today w = (Returned today, w1) ->
  h (data_accesor m_hasRun [today]) w1 = (Returned already, w2) ->
  truthy already = false ->
  h (data_accesor m_readDate [today]) w2 = (Returned commit_num, w3) ->
  h (commiter_commit [commit_num]) w3 = (Raised e, w4) ->
  exec h Main._runCommit w =
    Execution ([(date_today, Returned today);
                (data_accesor m_hasRun [today], Returned already);
                (data_accesor m_readDate [today], Returned commit_num);
                (commiter_commit [commit_num], Raised e)])
              (Raised e) w4.
Proof.
  intros H1 H2 T H3 H4. unfold Main._runCommit, perform. simpl.
  rewrite H1. simpl. rewrite H2. simpl. rewrite T. simpl.
  rewrite H3. simpl. rewrite H4. reflexivity.
Qed.

End RunCommit.

(** The data accessor of the scenarios keeps its side of the contract:
    a date that [logRun] recorded is reported by [hasRun]. *)
Lemma PlanStore_logRun_marks cv cm day d w u w' :
  Scenario.on day cv cm (data_accesor m_logRun [d]) w = (Returned u, w') ->
  exists a w'', Scenario.on day cv cm (data_accesor m_hasRun [d]) w' = (Returned a, w'')
                /\ truthy a = true.
Proof.
  destruct d; simpl; try discriminate. intros [= <- <-].
  eexists _, _. split; [reflexivity |]. simpl.
  apply bool_decide_eq_true. set_solver.
Qed.

(** In the scenarios only [logRun] changes the run log, and only
    [createDict] changes the plan. *)
Lemma PlanStore_run_log_frame day cv cm c w :
  is_logRun c = false ->
  PlanStore.run_log (snd (Scenario.on day cv cm c w)) = PlanStore.run_log w.
Proof.
  destruct c as [| m args | | | | |]; simpl; try reflexivity.
  destruct m, args as [| a [| b args]]; simpl; try reflexivity; try discriminate;
    destruct a; reflexivity.
Qed.

Lemma PlanStore_plan_frame day cv cm c w :
  is_createDict c = false ->
  PlanStore.plan (snd (Scenario.on day cv cm c w)) = PlanStore.plan w.
Proof.
  destruct c as [| m args | | | | |]; simpl; try reflexivity.
  destruct m, args as [| a [| b args]]; simpl; try reflexivity; try discriminate;
    destruct a; reflexivity.
Qed.

Lemma PlanStore_hasRun_frame day cv cm c d w :
  is_logRun c = false ->
  fst (Scenario.on day cv cm (data_accesor m_hasRun [d]) (snd (Scenario.on day cv cm c w)))
  = fst (Scenario.on day cv cm (data_accesor m_hasRun [d]) w).
Proof.
  intros Hc. destruct d; simpl; try reflexivity.
  rewrite (PlanStore_run_log_frame day cv cm c w Hc). reflexivity.
Qed.

(** C1. No double run: when [hasRun] answers true for today's date,
    [_runCommit] returns without calling [Commiter.commit] and without
    calling [DataAccess.logRun]. *)
Theorem runCommit_no_double_run {W} (h : handler W) w today w1 already w2 :
  h date_today w = (Returned today, w1) ->
  h (data_accesor m_hasRun [today]) w1 = (Returned already, w2) ->
  truthy already = true ->
  result (exec h Main._runCommit w) = Returned VNone
  /\ called is_commit (calls (exec h Main._runCommit w)) = []
  /\ called is_logRun (calls (exec h Main._runCommit w)) = [].
Proof.
  intros H1 H2 T. rewrite (runCommit_already_run h _ _ _ _ _ H1 H2 T).
  repeat split.
Qed.

Lemma runCommit_no_double_run_witness :
  result (exec (Scenario.on Scenario.jan1 Scenario.converts Scenario.succeeds)
               Main._runCommit Scenario.ran_jan1) = Returned VNone
  /\ called is_commit
       (calls (exec (Scenario.on Scenario.jan1 Scenario.converts Scenario.succeeds)
                    Main._runCommit Scenario.ran_jan1)) = []
  /\ called is_logRun
       (calls (exec (Scenario.on Scenario.jan1 Scenario.converts Scenario.succeeds)
                    Main._runCommit Scenario.ran_jan1)) = [].
Proof.
  apply (runCommit_no_double_run
           (Scenario.on Scenario.jan1 Scenario.converts Scenario.succeeds)
           Scenario.ran_jan1 (VDate Scenario.jan1) Scenario.ran_jan1
           (VBool true) Scenario.ran_jan1);
    reflexivity.
Defined.

(** C2, as stated, fails: on 2024-01-02 the planned count is 0 and the
    date has not run, yet [_runCommit] calls [Commiter.commit] (with 0). *)
Lemma zero_count_day_calls_commit :
  fst (PlanStore.hasRun Scenario.fresh (VDate Scenario.jan2)) = Returned (VBool false)
  /\ PlanStore.countFor Scenario.fresh Scenario.jan2 = 0
  /\ called is_commit
       (calls (exec (Scenario.on Scenario.jan2 Scenario.converts Scenario.succeeds)
                    Main._runCommit Scenario.fresh))
     <> [].
Proof. repeat split. vm_compute. discriminate. Qed.

(** C2, amended. On a date that has not run and whose planned count is 0,
    [_runCommit] calls [Commiter.commit] once, with 0, and when that call
    returns it calls [logRun] for the date: with a data accessor whose
    [hasRun] reports what [logRun] recorded, [hasRun] is true afterwards. *)
Theorem runCommit_zero_count_day {W} (h : handler W)
    w today w1 already w2 w3 r w4 u w5 :
  (forall d w0 u0 w0',
      h (data_accesor m_logRun [d]) w0 = (Returned u0, w0') ->
      exists a w0'', h (data_accesor m_hasRun [d]) w0' = (Returned a, w0'')
                     /\ truthy a = true) ->
  h date_today w = (Returned today, w1) ->
  h (data_accesor m_hasRun [today]) w1 = (Returned already, w2) ->
  truthy already = false ->
  h (data_accesor m_readDate [today]) w2 = (Returned (VInt 0), w3) ->
  h (commiter_commit [VInt 0]) w3 = (Returned r, w4) ->
  h (data_accesor m_logRun [today]) w4 = (Returned u, w5) ->
  result (exec h Main._runCommit w) = Returned VNone
  /\ called is_commit (calls (exec h Main._runCommit w))
     = [(commiter_commit [VInt 0], Returned r)]
  /\ called is_logRun (calls (exec h Main._runCommit w))
     = [(data_accesor m_logRun [today], Returned u)]
  /\ exists a w6,
       h (data_accesor m_hasRun [today]) (final (exec h Main._runCommit w))
       = (Returned a, w6)
       /\ truthy a = true.
Proof.
  intros Hmarks H1 H2 T H3 H4 H5.
  rewrite (runCommit_commit_returned h _ _ _ _ _ _ _ _ _ H1 H2 T H3 H4).
  rewrite H5. simpl. repeat split.
  apply (Hmarks today w4 u w5 H5).
Qed.

Lemma runCommit_zero_count_day_witness :
  result (exec (Scenario.on Scenario.jan2 Scenario.converts Scenario.succeeds)
               Main._runCommit Scenario.fresh) = Returned VNone
  /\ called is_commit
       (calls (exec (Scenario.on Scenario.jan2 Scenario.converts Scenario.succeeds)
                    Main._runCommit Scenario.fresh))
     = [(commiter_commit [VInt 0], Returned (VResult Success))]
  /\ called is_logRun
       (calls (exec (Scenario.on Scenario.jan2 Scenario.converts Scenario.succeeds)
                    Main._runCommit Scenario.fresh))
     = [(data_accesor m_logRun [VDate Scenario.jan2], Returned VNone)]
  /\ exists a w6,
       Scenario.on Scenario.jan2 Scenario.converts Scenario.succeeds
         (data_accesor m_hasRun [VDate Scenario.jan2])
         (final (exec (Scenario.on Scenario.jan2 Scenario.converts Scenario.succeeds)
                      Main._runCommit Scenario.fresh))
       = (Returned a, w6)
       /\ truthy a = true.
Proof.
  apply (runCommit_zero_count_day
           (Scenario.on Scenario.jan2 Scenario.converts Scenario.succeeds)
           Scenario.fresh (VDate Scenario.jan2) Scenario.fresh
           (VBool false) Scenario.fresh Scenario.fresh
           (VResult Success) Scenario.fresh VNone
           (snd (PlanStore.logRun Scenario.fresh (VDate Scenario.jan2))));
    try reflexivity.
  apply PlanStore_logRun_marks.
Defined.

(** C3, as stated, fails: on 2024-01-01 three commits are planned and the
    commiter reports failure as its result; [_runCommit] calls [logRun]
    all the same and [hasRun] is true afterwards. *)
Lemma failed_commit_still_marked :
  PlanStore.countFor Scenario.fresh Scenario.jan1 = 3
  /\ called is_commit
       (calls (exec (Scenario.on Scenario.jan1 Scenario.converts Scenario.fails)
                    Main._runCommit Scenario.fresh))
     = [(commiter_commit [VInt 3], Returned (VResult Failure))]
  /\ called is_logRun
       (calls (exec (Scenario.on Scenario.jan1 Scenario.converts Scenario.fails)
                    Main._runCommit Scenario.fresh))
     <> []
  /\ fst (PlanStore.hasRun
            (final (exec (Scenario.on Scenario.jan1 Scenario.converts Scenario.fails)
                         Main._runCommit Scenario.fresh))
            (VDate Scenario.jan1))
     = Returned (VBool true).
Proof. repeat split. vm_compute. discriminate. Qed.

(** C3, amended. On a date with a positive planned count, if
    [Commiter.commit] raises, [_runCommit] does not call [logRun] and the
    exception leaves [_runCommit]; with a data accessor where only [logRun]
    changes what [hasRun] answers, [hasRun] is still false for the date
    afterwards. *)
Theorem runCommit_commit_raises_not_marked {W} (h : handler W)
    w today w1 already w2 n w3 e w4 :
  (forall c d w0, is_logRun c = false ->
      fst (h (data_accesor m_hasRun [d]) (snd (h c w0)))
      = fst (h (data_accesor m_hasRun [d]) w0)) ->
  h date_today w = (Returned today, w1) ->
  h (data_accesor m_hasRun [today]) w1 = (Returned already, w2) ->
  truthy already = false ->
  h (data_accesor m_readDate [today]) w2 = (Returned (VInt n), w3) ->
  0 < n ->
  h (commiter_commit [VInt n]) w3 = (Raised e, w4) ->
  result (exec h Main._runCommit w) = Raised e
  /\ called is_logRun (calls (exec h Main._runCommit w)) = []
  /\ fst (h (data_accesor m_hasRun [today]) (final (exec h Main._runCommit w)))
     = Returned already.
Proof.
  intros Hframe H1 H2 T H3 Hn H4.
  assert (Hnone : called is_logRun (calls (exec h Main._runCommit w)) = []).
  { rewrite (runCommit_commit_raised h _ _ _ _ _ _ _ _ _ H1 H2 T H3 H4).
    reflexivity. }
  split; [| split; [exact Hnone |]].
  - rewrite (runCommit_commit_raised h _ _ _ _ _ _ _ _ _ H1 H2 T H3 H4).
    reflexivity.
  - rewrite (exec_frame h is_logRun
               (fun w0 => fst (h (data_accesor m_hasRun [today]) w0))
               Main._runCommit w (fun c w0 Hc => Hframe c today w0 Hc) Hnone).
    pose proof (Hframe date_today today w eq_refl) as Hw.
    rewrite H1 in Hw. simpl in Hw. rewrite <- Hw, H2. reflexivity.
Qed.

Lemma runCommit_commit_raises_not_marked_witness :
  result (exec (Scenario.on Scenario.jan1 Scenario.converts Scenario.crashes)
               Main._runCommit Scenario.fresh) = Raised (Error "CommitError")
  /\ called is_logRun
       (calls (exec (Scenario.on Scenario.jan1 Scenario.converts Scenario.crashes)
                    Main._runCommit Scenario.fresh)) = []
  /\ fst (Scenario.on Scenario.jan1 Scenario.converts Scenario.crashes
            (data_accesor m_hasRun [VDate Scenario.jan1])
            (final (exec (Scenario.on Scenario.jan1 Scenario.converts Scenario.crashes)
                         Main._runCommit Scenario.fresh)))
     = Returned (VBool false).
Proof.
  apply (runCommit_commit_raises_not_marked
           (Scenario.on Scenario.jan1 Scenario.converts Scenario.crashes)
           Scenario.fresh (VDate Scenario.jan1) Scenario.fresh
           (VBool false) Scenario.fresh 3 Scenario.fresh
           (Error "CommitError") Scenario.fresh);
    try reflexivity.
  intros c d w0 Hc. apply PlanStore_hasRun_frame, Hc.
Defined.

(** C4, as stated, fails: with three commits planned and a commiter that
    reports failure as its result, [logRun] is reached although no call of
    [commit] succeeded. *)
Lemma logRun_reached_after_failed_commit :
  ~ logRun_only_after_success
      (PlanStore.countFor Scenario.fresh Scenario.jan1)
      (calls (exec (Scenario.on Scenario.jan1 Scenario.converts Scenario.fails)
                   Main._runCommit Scenario.fresh)).
Proof.
  intros Hord.
  destruct (Hord
    [(date_today, Returned (VDate Scenario.jan1));
     (data_accesor m_hasRun [VDate Scenario.jan1], Returned (VBool false));
     (data_accesor m_readDate [VDate Scenario.jan1], Returned (VInt 3));
     (commiter_commit [VInt 3], Returned (VResult Failure))]
    (data_accesor m_logRun [VDate Scenario.jan1], Returned VNone)
    [] eq_refl eq_refl) as [Hzero | [args Hin]].
  - vm_compute in Hzero. discriminate.
  - simpl in Hin. repeat destruct Hin as [Hin | Hin]; try discriminate. exact Hin.
Qed.

(** C4, amended. In every execution of [_runCommit], [logRun] is called
    only after [Commiter.commit] has returned, without raising, in that
    execution (on zero-count days too); it is the last call, made for the
    date whose count was read and passed to [commit]. *)
Theorem runCommit_logRun_after_commit_returned {W} (h : handler W) w t1 ev t2 :
  calls (exec h Main._runCommit w) = t1 ++ ev :: t2 ->
  is_logRun (fst ev) = true ->
  exists today already commit_num r,
    t1 = [(date_today, Returned today);
          (data_accesor m_hasRun [today], Returned already);
          (data_accesor m_readDate [today], Returned commit_num);
          (commiter_commit [commit_num], Returned r)]
    /\ fst ev = data_accesor m_logRun [today]
    /\ t2 = [].
Proof.
  unfold Main._runCommit, perform. simpl.
  next_call h; [next_call h; [destruct (truthy v0) eqn:T; simpl;
    [| next_call h; [next_call h; [next_call h |] |]] |] |];
    intros E L;
    repeat (destruct t1 as [| ? t1]; simpl in E;
            [injection E as <- E; try discriminate L
            | injection E as <- E]);
    try discriminate E; subst.
  all: try (destruct t1; discriminate E).
  all: eexists _, _, _, _; repeat split.
Qed.

Lemma runCommit_logRun_after_commit_returned_witness :
  exists today already commit_num r,
    [(date_today, Returned (VDate Scenario.jan1));
     (data_accesor m_hasRun [VDate Scenario.jan1], Returned (VBool false));
     (data_accesor m_readDate [VDate Scenario.jan1], Returned (VInt 3));
     (commiter_commit [VInt 3], Returned (VResult Success))]
    = [(date_today, Returned today);
       (data_accesor m_hasRun [today], Returned already);
       (data_accesor m_readDate [today], Returned commit_num);
       (commiter_commit [commit_num], Returned r)]
    /\ fst (data_accesor m_logRun [VDate Scenario.jan1], Returned (@VNone))
       = data_accesor m_logRun [today]
    /\ @nil event = [].
Proof.
  apply (runCommit_logRun_after_commit_returned
           (Scenario.on Scenario.jan1 Scenario.converts Scenario.succeeds)
           Scenario.fresh
           [(date_today, Returned (VDate Scenario.jan1));
            (data_accesor m_hasRun [VDate Scenario.jan1], Returned (VBool false));
            (data_accesor m_readDate [VDate Scenario.jan1], Returned (VInt 3));
            (commiter_commit [VInt 3], Returned (VResult Success))]
           (data_accesor m_logRun [VDate Scenario.jan1], Returned VNone)
           []);
    reflexivity.
Defined.

(** C8, as stated, fails: a commiter that reports its failure by raising
    makes [_runCommit] raise too; nothing in [_runCommit] catches it. *)
Lemma raised_commit_failure_escapes :
  Scenario.crashes [VInt 3] = Raised (Error "CommitError")
  /\ result (exec (Scenario.on Scenario.jan1 Scenario.converts Scenario.crashes)
                  Main._runCommit Scenario.fresh)
     = Raised (Error "CommitError")
  /\ ~ exists v,
         result (exec (Scenario.on Scenario.jan1 Scenario.converts Scenario.crashes)
                      Main._runCommit Scenario.fresh)
         = Returned v.
Proof.
  repeat split. intros [v Hv]. vm_compute in Hv. discriminate.
Qed.

(** C8, amended. A failure that [Commiter.commit] reports through the
    value it returns stays inside [_runCommit]: the value is dropped and,
    the calls of the data accessor returning, [_runCommit] returns [None]. *)
Theorem runCommit_returned_failure_contained {W} (h : handler W)
    w today w1 already w2 commit_num w3 w4 u w5 :
  h date_today w = (Returned today, w1) ->
  h (data_accesor m_hasRun [today]) w1 = (Returned already, w2) ->
  truthy already = false ->
  h (data_accesor m_readDate [today]) w2 = (Returned commit_num, w3) ->
  h (commiter_commit [commit_num]) w3 = (Returned (VResult Failure), w4) ->
  h (data_accesor m_logRun [today]) w4 = (Returned u, w5) ->
  result (exec h Main._runCommit w) = Returned VNone
  /\ forall ev, In ev (calls (exec h Main._runCommit w)) -> raises (snd ev) = false.
Proof.
  intros H1 H2 T H3 H4 H5.
  rewrite (runCommit_commit_returned h _ _ _ _ _ _ _ _ _ H1 H2 T H3 H4).
  rewrite H5. simpl. split; [reflexivity |].
  intros ev Hin. repeat destruct Hin as [<- | Hin]; try reflexivity.
  destruct Hin.
Qed.

Lemma runCommit_returned_failure_contained_witness :
  result (exec (Scenario.on Scenario.jan1 Scenario.converts Scenario.fails)
               Main._runCommit Scenario.fresh) = Returned VNone
  /\ forall ev,
       In ev (calls (exec (Scenario.on Scenario.jan1 Scenario.converts Scenario.fails)
                          Main._runCommit Scenario.fresh)) ->
       raises (snd ev) = false.
Proof.
  apply (runCommit_returned_failure_contained
           (Scenario.on Scenario.jan1 Scenario.converts Scenario.fails)
           Scenario.fresh (VDate Scenario.jan1) Scenario.fresh
           (VBool false) Scenario.fresh (VInt 3) Scenario.fresh Scenario.fresh
           VNone (snd (PlanStore.logRun Scenario.fresh (VDate Scenario.jan1))));
    reflexivity.
Defined.

(** C10. Within one call of [_runCommit] the date is read from the clock
    once, as the first call, and every call of the data accessor
    ([hasRun], [readDate], [logRun]) is made with exactly that date. *)
Theorem runCommit_one_date {W} (h : handler W) w :
  exists o,
    head (calls (exec h Main._runCommit w)) = Some (date_today, o)
    /\ called is_today (calls (exec h Main._runCommit w)) = [(date_today, o)]
    /\ forall m args o',
         In (data_accesor m args, o') (calls (exec h Main._runCommit w)) ->
         exists today,
           o = Returned today /\ args = [today]
           /\ (m = m_hasRun \/ m = m_readDate \/ m = m_logRun).
Proof.
  unfold Main._runCommit, perform. simpl.
  next_call h; [next_call h; [destruct (truthy v0) eqn:T; simpl;
    [| next_call h; [next_call h; [next_call h |] |]] |] |];
    eexists; (split; [reflexivity |]); (split; [reflexivity |]);
    intros m args o' Hin; simpl in Hin;
    repeat destruct Hin as [Hin | Hin]; try discriminate Hin; try contradiction;
    injection Hin as <- <- _; eexists; repeat split; auto.
Qed.

(** ** [Main.run] *)

Lemma avoids_bind {A B} P (p : prog A) (f : A -> prog B) :
  avoids P p -> (forall a, avoids P (f a)) -> avoids P (bind p f).
Proof.
  induction p as [a | c k IH]; simpl; [auto |].
  intros [Hc Hk] Hf. split; [exact Hc |]. intros v. apply IH; auto.
Qed.

Lemma avoids_called {W A} (h : handler W) P (p : prog A) w :
  avoids P p -> called P (calls (exec h p w)) = [].
Proof.
  revert w. induction p as [a | c k IH]; intros w; simpl; [reflexivity |].
  intros [Hc Hk]. destruct (h c w) as [[v | e] w']; unfold called; simpl;
    rewrite Hc; [apply IH, Hk | reflexivity].
Qed.

Lemma runCommit_avoids P :
  P date_today = false ->
  (forall m args, P (data_accesor m args) = P (data_accesor m [])) ->
  P (data_accesor m_hasRun []) = false ->
  P (data_accesor m_readDate []) = false ->
  P (data_accesor m_logRun []) = false ->
  (forall args, P (commiter_commit args) = false) ->
  avoids P Main._runCommit.
Proof.
  intros Ht Hargs Hh Hr Hl Hc. unfold Main._runCommit, perform. simpl.
  split; [exact Ht |]. intros today.
  split; [rewrite Hargs; exact Hh |]. intros already.
  destruct (truthy already); simpl; [exact I |].
  split; [rewrite Hargs; exact Hr |]. intros commit_num.
  split; [apply Hc |]. intros _.
  split; [rewrite Hargs; exact Hl |]. intros _. exact I.
Qed.

Lemma run_unfold :
  Main.run =
    (status <- perform (data_accesor m_getStatus []) ;;
     (if negb (truthy status) then Main.setupPlan else Ret VNone) ;;
     after_bootstrap).
Proof. reflexivity. Qed.

Lemma after_bootstrap_avoids P :
  P date_today = false ->
  (forall m args, P (data_accesor m args) = P (data_accesor m [])) ->
  P (data_accesor m_hasRun []) = false ->
  P (data_accesor m_readDate []) = false ->
  P (data_accesor m_logRun []) = false ->
  (forall args, P (commiter_commit args) = false) ->
  (forall c, is_schedule c = true -> P c = false) ->
  avoids P after_bootstrap.
Proof.
  intros Ht Hargs Hh Hr Hl Hc Hsched.
  unfold after_bootstrap, perform. simpl.
  split; [exact Hh |]. intros ran.
  apply avoids_bind.
  - destruct (truthy ran); simpl; [exact I |]. apply runCommit_avoids; assumption.
  - intros _. simpl. repeat (split; [apply Hsched; reflexivity | intros ?]). exact I.
Qed.

(** With the store initialized, [run] makes neither bootstrap call. *)
Lemma run_initialized_skips_bootstrap {W} (h : handler W) w status w1 P :
  h (data_accesor m_getStatus []) w = (Returned status, w1) ->
  truthy status = true ->
  P (data_accesor m_getStatus []) = false ->
  avoids P after_bootstrap ->
  called P (calls (exec h Main.run w)) = [].
Proof.
  intros H1 T Hg Ha. rewrite run_unfold. unfold perform. simpl.
  rewrite H1. simpl. rewrite T. simpl.
  unfold called. simpl. rewrite Hg.
  apply (avoids_called h P after_bootstrap w1 Ha).
Qed.

(** Neither [after_bootstrap] nor [_runCommit] converts or writes a plan. *)
Lemma after_bootstrap_avoids_convert : avoids is_convert after_bootstrap.
Proof.
  apply after_bootstrap_avoids; try reflexivity.
  intros c. destruct c; simpl; intros; (reflexivity || discriminate).
Qed.

Lemma after_bootstrap_avoids_createDict : avoids is_createDict after_bootstrap.
Proof.
  apply after_bootstrap_avoids; try reflexivity.
  intros c. destruct c; simpl; intros; (reflexivity || discriminate).
Qed.

(** C5. Started twice in a row against a store that answers [getStatus]
    with true each time, [run] never calls [convert] and never calls
    [createDict]; hence whatever only [createDict] can change (the
    persisted plan) is the same after the second start as before the
    first. *)
Theorem run_twice_keeps_plan {W} (h : handler W) w status w1 status' w1' :
  h (data_accesor m_getStatus []) w = (Returned status, w1) ->
  truthy status = true ->
  h (data_accesor m_getStatus []) (final (exec h Main.run w)) = (Returned status', w1') ->
  truthy status' = true ->
  called is_convert
    (calls (exec h Main.run w) ++ calls (exec h Main.run (final (exec h Main.run w)))) = []
  /\ called is_createDict
       (calls (exec h Main.run w) ++ calls (exec h Main.run (final (exec h Main.run w)))) = []
  /\ forall X (plan_of : W -> X),
       (forall c w0, is_createDict c = false -> plan_of (snd (h c w0)) = plan_of w0) ->
       plan_of (final (exec h Main.run (final (exec h Main.run w)))) = plan_of w.
Proof.
  intros H1 T1 H2 T2.
  pose proof (run_initialized_skips_bootstrap h w status w1 is_convert
                H1 T1 eq_refl after_bootstrap_avoids_convert) as Hc1.
  pose proof (run_initialized_skips_bootstrap h _ status' w1' is_convert
                H2 T2 eq_refl after_bootstrap_avoids_convert) as Hc2.
  pose proof (run_initialized_skips_bootstrap h w status w1 is_createDict
                H1 T1 eq_refl after_bootstrap_avoids_createDict) as Hd1.
  pose proof (run_initialized_skips_bootstrap h _ status' w1' is_createDict
                H2 T2 eq_refl after_bootstrap_avoids_createDict) as Hd2.
  rewrite !called_app, Hc1, Hc2, Hd1, Hd2.
  split; [reflexivity | split; [reflexivity |]].
  intros X plan_of Hframe.
  rewrite (exec_frame h is_createDict plan_of Main.run _ Hframe Hd2).
  apply (exec_frame h is_createDict plan_of Main.run w Hframe Hd1).
Qed.

Lemma run_twice_keeps_plan_witness :
  called is_convert
    (calls (exec (Scenario.on Scenario.jan2 Scenario.converts Scenario.succeeds)
                 Main.run Scenario.ran_jan1)
     ++ calls (exec (Scenario.on Scenario.jan2 Scenario.converts Scenario.succeeds)
                    Main.run
                    (final (exec (Scenario.on Scenario.jan2 Scenario.converts
                                    Scenario.succeeds)
                                 Main.run Scenario.ran_jan1)))) = []
  /\ PlanStore.plan
       (final (exec (Scenario.on Scenario.jan2 Scenario.converts Scenario.succeeds)
                    Main.run
                    (final (exec (Scenario.on Scenario.jan2 Scenario.converts
                                    Scenario.succeeds)
                                 Main.run Scenario.ran_jan1))))
     = Some Scenario.commits.
Proof.
  destruct (run_twice_keeps_plan
              (Scenario.on Scenario.jan2 Scenario.converts Scenario.succeeds)
              Scenario.ran_jan1 (VBool true) Scenario.ran_jan1
              (VBool true) Scenario.ran_jan1
              eq_refl eq_refl eq_refl eq_refl) as (Hc & _ & Hplan).
  split; [exact Hc |].
  exact (Hplan _ PlanStore.plan
           (PlanStore_plan_frame Scenario.jan2 Scenario.converts Scenario.succeeds)).
Defined.

(** With a data accessor that has the signatures of [DataAccess], [run]
    on an initialized store stops at [hasRun()]: the call lacks the date and
    raises [TypeError], so [_runCommit] is not entered and no trigger is
    registered. *)
Lemma run_hasRun_without_date {S} (cls : DataAccess_class S) env self status self' :
  cls_getStatus cls self = (Returned status, self') ->
  truthy status = true ->
  exec (environment cls env) Main.run self =
    Execution [(data_accesor m_getStatus [], Returned status);
               (data_accesor m_hasRun [], Raised TypeError)]
              (Raised TypeError) self'.
Proof.
  intros H1 T. unfold Main.run, perform. simpl.
  rewrite H1. simpl. rewrite T. reflexivity.
Qed.

(** C6, at the failing input: the plan is stored, 2024-01-01 has not run,
    and [run] is started on 2024-01-01.  The clock is never read and
    [Commiter.commit] is never called: there is no catch-up run. *)
Theorem run_catch_up_raises_TypeError :
  fst (PlanStore.getStatus Scenario.fresh) = Returned (VBool true)
  /\ fst (PlanStore.hasRun Scenario.fresh (VDate Scenario.jan1)) = Returned (VBool false)
  /\ exec (Scenario.on Scenario.jan1 Scenario.converts Scenario.succeeds)
          Main.run Scenario.fresh
     = Execution [(data_accesor m_getStatus [], Returned (VBool true));
                  (data_accesor m_hasRun [], Raised TypeError)]
                 (Raised TypeError) Scenario.fresh.
Proof. repeat split. Qed.

(** C7, at the failing input: [DataAccess.readDate] returns [None] for a
    date the plan was created with (planned count 3) and for a date that is
    not in the plan (not 0); it does not raise for any argument. *)
Theorem DataAccess_readDate_returns_None :
  let stored :=
    snd (DataAccess.createDict (DataAccess.__init__ "db") (VDict Scenario.commits)) in
  Scenario.commits !! Scenario.jan1 = Some 3
  /\ fst (DataAccess.readDate stored (VDate Scenario.jan1)) = Returned VNone
  /\ Scenario.commits !! Date 2030 1 1 = None
  /\ fst (DataAccess.readDate stored (VDate (Date 2030 1 1))) = Returned VNone
  /\ forall d, raises (fst (DataAccess.readDate stored d)) = false.
Proof. repeat split. Qed.

(** C9, as stated, fails: the store has no plan, the plan is converted and
    [createDict] cannot save it.  [run] ends with the data accessor's own
    exception, a [StorageFailure]; no [BootstrapFailure] is surfaced. *)
Lemma bootstrap_save_failure_is_not_wrapped :
  fst (PlanStore.getStatus Scenario.blank) = Returned (VBool false)
  /\ result (exec (Scenario.on_read_only Scenario.jan1 Scenario.converts Scenario.succeeds)
                  Main.run Scenario.blank)
     = Raised (Error "StorageFailure")
  /\ ~ exists e,
         result (exec (Scenario.on_read_only Scenario.jan1 Scenario.converts
                         Scenario.succeeds)
                      Main.run Scenario.blank)
         = Raised e
         /\ is_BootstrapFailure e = true.
Proof.
  repeat split. intros (e & He & Hb).
  vm_compute in He. injection He as <-. vm_compute in Hb. discriminate.
Qed.

(** C9, amended. When the store is not initialized and [convert] raises,
    or [convert] returns and [createDict] raises, [run] ends with that very
    exception, as the collaborator raised it: it reaches neither the
    catch-up run nor the registration of the trigger. *)
Theorem run_bootstrap_failure {W} (h : handler W) w status w1 e :
  h (data_accesor m_getStatus []) w = (Returned status, w1) ->
  truthy status = false ->
  (exists w2, h (converter_convert []) w1 = (Raised e, w2))
  \/ (exists commit_plan w2 w3,
        h (converter_convert []) w1 = (Returned commit_plan, w2)
        /\ h (data_accesor m_createDict [commit_plan]) w2 = (Raised e, w3)) ->
  result (exec h Main.run w) = Raised e
  /\ called is_schedule (calls (exec h Main.run w)) = []
  /\ called is_today (calls (exec h Main.run w)) = []
  /\ called is_commit (calls (exec h Main.run w)) = [].
Proof.
  intros H1 T [[w2 H2] | (commit_plan & w2 & w3 & H2 & H3)];
    unfold Main.run, Main.setupPlan, perform; simpl;
    rewrite H1; simpl; rewrite T; simpl; rewrite H2; simpl.
  - repeat split.
  - rewrite H3. repeat split.
Qed.

Lemma run_bootstrap_failure_witness :
  result (exec (Scenario.on Scenario.jan1 Scenario.unreachable Scenario.succeeds)
               Main.run Scenario.blank) = Raised (Error "SourceUnreachable")
  /\ called is_schedule
       (calls (exec (Scenario.on Scenario.jan1 Scenario.unreachable Scenario.succeeds)
                    Main.run Scenario.blank)) = []
  /\ called is_today
       (calls (exec (Scenario.on Scenario.jan1 Scenario.unreachable Scenario.succeeds)
                    Main.run Scenario.blank)) = []
  /\ called is_commit
       (calls (exec (Scenario.on Scenario.jan1 Scenario.unreachable Scenario.succeeds)
                    Main.run Scenario.blank)) = [].
Proof.
  apply (run_bootstrap_failure
           (Scenario.on Scenario.jan1 Scenario.unreachable Scenario.succeeds)
           Scenario.blank (VBool false) Scenario.blank (Error "SourceUnreachable"));
    [reflexivity | reflexivity |].
  left. exists Scenario.blank. reflexivity.
Defined.

(** The other bootstrap failure: the plan is converted and cannot be saved. *)
Example run_bootstrap_save_failure :
  exec (Scenario.on_read_only Scenario.jan1 Scenario.converts Scenario.succeeds)
       Main.run Scenario.blank
  = Execution [(data_accesor m_getStatus [], Returned (VBool false));
               (converter_convert [], Returned (VDict Scenario.commits));
               (data_accesor m_createDict [VDict Scenario.commits],
                Raised (Error "StorageFailure"))]
              (Raised (Error "StorageFailure")) Scenario.blank.
Proof. reflexivity. Qed.

(** [run] calls [convert()] without the source: a converter with the
    signature of [IConverter.convert] raises [TypeError], and so does [run]
    on a store without a plan. *)
Example run_bootstrap_IConverter :
  exec (Scenario.on Scenario.jan1 IConverter.convert Scenario.succeeds)
       Main.run Scenario.blank
  = Execution [(data_accesor m_getStatus [], Returned (VBool false));
               (converter_convert [], Raised TypeError)]
              (Raised TypeError) Scenario.blank.
Proof. reflexivity. Qed.

(** [Main] wired to [DataAccess] as it is: [getStatus] returns [None], the
    bootstrap is entered, and after it [hasRun()] lacks its argument. *)
Example run_with_DataAccess :
  exec (environment DataAccess_stub
          {| today := Scenario.jan1; convert := Scenario.converts;
             commit := Scenario.succeeds; library := schedule |})
       Main.run (DataAccess.__init__ "db")
  = Execution [(data_accesor m_getStatus [], Returned VNone);
               (converter_convert [], Returned (VDict Scenario.commits));
               (data_accesor m_createDict [VDict Scenario.commits], Returned VNone);
               (data_accesor m_hasRun [], Raised TypeError)]
              (Raised TypeError) (DataAccess.__init__ "db").
Proof. reflexivity. Qed.

(** * Further properties of the code *)

(** ** [Main._runCommit] *)

(** X1. In every execution of [_runCommit], [commit] is called at most
    once, and when it is called its only argument is the value that
    [readDate] returned, in the call just before, for the date the clock
    gave. *)
Theorem runCommit_commit_gets_read_count {W} (h : handler W) w :
  called is_commit (calls (exec h Main._runCommit w)) = []
  \/ exists today already commit_num o t',
       calls (exec h Main._runCommit w)
       = [(date_today, Returned today);
          (data_accesor m_hasRun [today], Returned already);
          (data_accesor m_readDate [today], Returned commit_num);
          (commiter_commit [commit_num], o)] ++ t'
       /\ called is_commit t' = [].
Proof.
  unfold Main._runCommit, perform. simpl.
  next_call h; [next_call h; [destruct (truthy v0) eqn:T; simpl;
    [| next_call h; [next_call h; [next_call h |] |]] |] |];
    try (left; reflexivity);
    right; eexists _, _, _, _, _; split; reflexivity.
Qed.

(** X2. [_runCommit] makes at most five calls, and none of them is
    [convert], [createDict], [getStatus] or a call on [schedule]: it never
    touches the plan or the trigger. *)
Theorem runCommit_never_bootstraps_or_registers {W} (h : handler W) w :
  called is_convert (calls (exec h Main._runCommit w)) = []
  /\ called is_createDict (calls (exec h Main._runCommit w)) = []
  /\ called is_getStatus (calls (exec h Main._runCommit w)) = []
  /\ called is_schedule (calls (exec h Main._runCommit w)) = []
  /\ (length (calls (exec h Main._runCommit w)) <= 5)%nat.
Proof.
  repeat split; try (apply avoids_called, runCommit_avoids; reflexivity).
  unfold Main._runCommit, perform. simpl.
  next_call h; [next_call h; [destruct (truthy v0) eqn:T; simpl;
    [| next_call h; [next_call h; [next_call h |] |]] |] |]; lia.
Qed.

(** X3. Run twice on the same day, [_runCommit] commits once: when the
    first call went through to [logRun], the data accessor reports what
    [logRun] recorded and the clock still shows the same date, the second
    call returns without calling [commit] or [logRun]. *)
Theorem runCommit_second_run_skips {W} (h : handler W)
    w today w1 already w2 commit_num w3 r w4 u w5 :
  (forall d w0 u0 w0',
      h (data_accesor m_logRun [d]) w0 = (Returned u0, w0') ->
      exists a w0'', h (data_accesor m_hasRun [d]) w0' = (Returned a, w0'')
                     /\ truthy a = true) ->
  h date_today w = (Returned today, w1) ->
  h (data_accesor m_hasRun [today]) w1 = (Returned already, w2) ->
  truthy already = false ->
  h (data_accesor m_readDate [today]) w2 = (Returned commit_num, w3) ->
  h (commiter_commit [commit_num]) w3 = (Returned r, w4) ->
  h (data_accesor m_logRun [today]) w4 = (Returned u, w5) ->
  h date_today w5 = (Returned today, w5) ->
  result (exec h Main._runCommit (final (exec h Main._runCommit w))) = Returned VNone
  /\ called is_commit
       (calls (exec h Main._runCommit (final (exec h Main._runCommit w)))) = []
  /\ called is_logRun
       (calls (exec h Main._runCommit (final (exec h Main._runCommit w)))) = []
  /\ called is_commit
       (calls (exec h Main._runCommit w)
        ++ calls (exec h Main._runCommit (final (exec h Main._runCommit w))))
     = [(commiter_commit [commit_num], Returned r)].
Proof.
  intros Hmarks H1 H2 T H3 H4 H5 Hclock.
  destruct (Hmarks today w4 u w5 H5) as (a & w6 & H6 & Ta).
  rewrite (runCommit_commit_returned h _ _ _ _ _ _ _ _ _ H1 H2 T H3 H4).
  rewrite H5. cbn [final snd].
  rewrite (runCommit_already_run h _ _ _ _ _ Hclock H6 Ta).
  repeat split.
Qed.

Lemma runCommit_second_run_skips_witness :
  result (exec (Scenario.on Scenario.jan1 Scenario.converts Scenario.succeeds)
            Main._runCommit
            (final (exec (Scenario.on Scenario.jan1 Scenario.converts Scenario.succeeds)
                      Main._runCommit Scenario.fresh))) = Returned VNone
  /\ called is_commit
       (calls (exec (Scenario.on Scenario.jan1 Scenario.converts Scenario.succeeds)
                 Main._runCommit
                 (final (exec (Scenario.on Scenario.jan1 Scenario.converts
                                 Scenario.succeeds)
                           Main._runCommit Scenario.fresh)))) = []
  /\ called is_logRun
       (calls (exec (Scenario.on Scenario.jan1 Scenario.converts Scenario.succeeds)
                 Main._runCommit
                 (final (exec (Scenario.on Scenario.jan1 Scenario.converts
                                 Scenario.succeeds)
                           Main._runCommit Scenario.fresh)))) = []
  /\ called is_commit
       (calls (exec (Scenario.on Scenario.jan1 Scenario.converts Scenario.succeeds)
                 Main._runCommit Scenario.fresh)
        ++ calls (exec (Scenario.on Scenario.jan1 Scenario.converts Scenario.succeeds)
                    Main._runCommit
                    (final (exec (Scenario.on Scenario.jan1 Scenario.converts
                                    Scenario.succeeds)
                              Main._runCommit Scenario.fresh))))
     = [(commiter_commit [VInt 3], Returned (VResult Success))].
Proof.
  apply (runCommit_second_run_skips
           (Scenario.on Scenario.jan1 Scenario.converts Scenario.succeeds)
           Scenario.fresh (VDate Scenario.jan1) Scenario.fresh
           (VBool false) Scenario.fresh (VInt 3) Scenario.fresh
           (VResult Success) Scenario.fresh VNone
           (snd (PlanStore.logRun Scenario.fresh (VDate Scenario.jan1))));
    try reflexivity.
  apply PlanStore_logRun_marks.
Defined.

(** ** [Main.run] and [Main.setupPlan] *)

Lemma after_bootstrap_unfold :
  after_bootstrap =
    (ran <- perform (data_accesor m_hasRun []) ;;
     (if negb (truthy ran) then Main._runCommit else Ret VNone) ;;
     registration).
Proof. reflexivity. Qed.

Lemma avoids_Forall {W A} (h : handler W) P (p : prog A) w :
  avoids P p -> Forall (fun ev => P (fst ev) = false) (calls (exec h p w)).
Proof.
  revert w. induction p as [a | c k IH]; intros w; simpl; [constructor |].
  intros [Hc Hk]. destruct (h c w) as [[v | e] w']; simpl.
  - constructor; [exact Hc | apply IH, Hk].
  - constructor; [exact Hc | constructor].
Qed.

Lemma then_only_bind {A B} Q (p : prog A) (f : A -> prog B) :
  avoids Q p -> (forall a, then_only Q (f a)) -> then_only Q (bind p f).
Proof.
  induction p as [a | c k IH]; simpl; [auto |].
  intros [Hc Hk] Hf. rewrite Hc. intros v. apply IH; auto.
Qed.

Lemma then_only_trace {W A} (h : handler W) Q (p : prog A) w t1 ev t2 :
  then_only Q p ->
  calls (exec h p w) = t1 ++ ev :: t2 ->
  Q (fst ev) = true ->
  Forall (fun ev' => Q (fst ev') = true) t2.
Proof.
  revert w t1. induction p as [a | c k IH]; intros w t1; simpl.
  - intros _ E. destruct t1; discriminate E.
  - intros Hp. destruct (h c w) as [[v | e] w']; simpl; intros E HQ.
    + destruct (Q c) eqn:Qc.
      * assert (Hall : Forall (fun ev' => Q (fst ev') = true) (calls (exec h (k v) w'))).
        { eapply Forall_impl; [apply (avoids_Forall h _ (k v) w' (Hp v)) |].
          simpl. intros ev' Hev'. destruct (Q (fst ev')); [reflexivity | discriminate]. }
        destruct t1 as [| ev0 t1]; simpl in E; injection E as _ E.
        -- rewrite <- E. exact Hall.
        -- rewrite E in Hall. apply Forall_app in Hall as [_ Hall].
           inversion Hall; assumption.
      * destruct t1 as [| ev0 t1]; simpl in E; injection E as E0 E.
        -- rewrite <- E0 in HQ. simpl in HQ. congruence.
        -- eapply IH; [apply Hp | exact E | exact HQ].
    + destruct t1 as [| ev0 t1]; simpl in E; injection E as _ E.
      * rewrite <- E. constructor.
      * destruct t1; discriminate E.
Qed.

Lemma run_then_only_schedule : then_only is_schedule Main.run.
Proof.
  rewrite run_unfold. unfold perform at 1. simpl bind. simpl then_only.
  intros status. apply then_only_bind.
  - destruct (truthy status); simpl; [exact I | repeat split].
  - intros _. rewrite after_bootstrap_unfold. unfold perform at 1.
    simpl bind. simpl then_only. intros ran. apply then_only_bind.
    + destruct (truthy ran); [exact I |].
      apply runCommit_avoids; reflexivity.
    + intros _. simpl. repeat split.
Qed.

(** X4. In every execution of [run], once the registration of the trigger
    has started ([schedule.every()] or a call on the job), every later call
    belongs to the registration too: the bootstrap and the catch-up run are
    over, and the clock, the data accessor, the converter and the commiter
    are not called any more. *)
Theorem run_registration_comes_last {W} (h : handler W) w t1 ev t2 :
  calls (exec h Main.run w) = t1 ++ ev :: t2 ->
  is_schedule (fst ev) = true ->
  Forall (fun ev' => is_schedule (fst ev') = true) t2.
Proof.
  intros E Hs.
  exact (then_only_trace h is_schedule Main.run w t1 ev t2
           run_then_only_schedule E Hs).
Qed.

Lemma run_registration_comes_last_witness :
  Forall (fun ev' => is_schedule (fst ev') = true)
         [(getattr job "data", @Raised value AttributeError)].
Proof.
  apply (run_registration_comes_last
           (Mock.on true Scenario.jan1 Scenario.converts Scenario.succeeds)
           Scenario.fresh
           [(data_accesor m_getStatus [], Returned (VBool true));
            (data_accesor m_hasRun [], Returned (VBool true))]
           (schedule_every, Returned job)
           [(getattr job "data", Raised AttributeError)]);
    reflexivity.
Defined.

Lemma called_cons P ev (t : trace) :
  called P (ev :: t) = if P (fst ev) then ev :: called P t else called P t.
Proof. reflexivity. Qed.

(** The ways [run] can go up to the end of the bootstrap step. *)
Lemma run_getStatus_raised {W} (h : handler W) w e w1 :
  h (data_accesor m_getStatus []) w = (Raised e, w1) ->
  exec h Main.run w = Execution [(data_accesor m_getStatus [], Raised e)] (Raised e) w1.
Proof.
  intros H1. rewrite run_unfold. unfold perform. cbn [bind exec].
  rewrite H1. reflexivity.
Qed.

Lemma run_initialized {W} (h : handler W) w status w1 :
  h (data_accesor m_getStatus []) w = (Returned status, w1) ->
  truthy status = true ->
  exec h Main.run w
  = Execution ((data_accesor m_getStatus [], Returned status)
               :: calls (exec h after_bootstrap w1))
              (result (exec h after_bootstrap w1))
              (final (exec h after_bootstrap w1)).
Proof.
  intros H1 T. rewrite run_unfold. unfold perform. cbn [bind exec].
  rewrite H1, T. reflexivity.
Qed.

Lemma run_convert_raised {W} (h : handler W) w status w1 e w2 :
  h (data_accesor m_getStatus []) w = (Returned status, w1) ->
  truthy status = false ->
  h (converter_convert []) w1 = (Raised e, w2) ->
  exec h Main.run w
  = Execution [(data_accesor m_getStatus [], Returned status);
               (converter_convert [], Raised e)]
              (Raised e) w2.
Proof.
  intros H1 T H2. rewrite run_unfold. unfold Main.setupPlan, perform.
  cbn [bind exec]. rewrite H1, T. cbn [negb bind exec]. rewrite H2. reflexivity.
Qed.

Lemma run_createDict_raised {W} (h : handler W) w status w1 commit_plan w2 e w3 :
  h (data_accesor m_getStatus []) w = (Returned status, w1) ->
  truthy status = false ->
  h (converter_convert []) w1 = (Returned commit_plan, w2) ->
  h (data_accesor m_createDict [commit_plan]) w2 = (Raised e, w3) ->
  exec h Main.run w
  = Execution [(data_accesor m_getStatus [], Returned status);
               (converter_convert [], Returned commit_plan);
               (data_accesor m_createDict [commit_plan], Raised e)]
              (Raised e) w3.
Proof.
  intros H1 T H2 H3. rewrite run_unfold. unfold Main.setupPlan, perform.
  cbn [bind exec]. rewrite H1, T. cbn [negb bind exec]. rewrite H2.
  cbn [bind exec calls result final]. rewrite H3. reflexivity.
Qed.

Lemma run_bootstrapped {W} (h : handler W) w status w1 commit_plan w2 u w3 :
  h (data_accesor m_getStatus []) w = (Returned status, w1) ->
  truthy status = false ->
  h (converter_convert []) w1 = (Returned commit_plan, w2) ->
  h (data_accesor m_createDict [commit_plan]) w2 = (Returned u, w3) ->
  exec h Main.run w
  = Execution ((data_accesor m_getStatus [], Returned status)
               :: (converter_convert [], Returned commit_plan)
               :: (data_accesor m_createDict [commit_plan], Returned u)
               :: calls (exec h after_bootstrap w3))
              (result (exec h after_bootstrap w3))
              (final (exec h after_bootstrap w3)).
Proof.
  intros H1 T H2 H3. rewrite run_unfold. unfold Main.setupPlan, perform.
  cbn [bind exec]. rewrite H1, T. cbn [negb bind exec]. rewrite H2.
  cbn [bind exec calls result final]. rewrite H3. reflexivity.
Qed.

(** X5. In every execution of [run] the plan is written at most once, and
    only as the third call: after [getStatus()] returned a false value and
    [convert()] returned, [createDict] receives exactly what [convert]
    returned.  [convert] is called at most once too. *)
Theorem run_saves_converted_plan {W} (h : handler W) w :
  (called is_createDict (calls (exec h Main.run w)) = []
   /\ (length (called is_convert (calls (exec h Main.run w))) <= 1)%nat)
  \/ exists status commit_plan o t',
       truthy status = false
       /\ calls (exec h Main.run w)
          = (data_accesor m_getStatus [], Returned status)
            :: (converter_convert [], Returned commit_plan)
            :: (data_accesor m_createDict [commit_plan], o) :: t'
       /\ called is_createDict t' = []
       /\ called is_convert t' = [].
Proof.
  destruct (h (data_accesor m_getStatus []) w) as [[status | e] w1] eqn:H1.
  2: { left. rewrite (run_getStatus_raised h w e w1 H1).
       split; [reflexivity | unfold called; simpl; lia]. }
  destruct (truthy status) eqn:T.
  { left. rewrite (run_initialized h w status w1 H1 T). cbn [calls].
    rewrite !called_cons. cbn [fst is_createDict is_convert].
    rewrite (avoids_called h _ _ w1 after_bootstrap_avoids_createDict).
    rewrite (avoids_called h _ _ w1 after_bootstrap_avoids_convert).
    split; [reflexivity | simpl; lia]. }
  destruct (h (converter_convert []) w1) as [[commit_plan | e] w2] eqn:H2.
  2: { left. rewrite (run_convert_raised h w status w1 e w2 H1 T H2).
       split; [reflexivity | unfold called; simpl; lia]. }
  right. exists status, commit_plan.
  destruct (h (data_accesor m_createDict [commit_plan]) w2) as [[u | e] w3] eqn:H3.
  - exists (Returned u), (calls (exec h after_bootstrap w3)).
    rewrite (run_bootstrapped h w status w1 commit_plan w2 u w3 H1 T H2 H3).
    split; [exact T |]. split; [reflexivity |].
    split; apply avoids_called;
      [apply after_bootstrap_avoids_createDict | apply after_bootstrap_avoids_convert].
  - exists (Raised e), [].
    rewrite (run_createDict_raised h w status w1 commit_plan w2 e w3 H1 T H2 H3).
    repeat split. exact T.
Qed.

(** X6. With a data accessor that has the method signatures of
    [DataAccess], whatever its methods do and whatever the other
    collaborators do, [run] always ends with an exception: it never reads
    the clock, never calls [commit] and never registers the trigger. *)
Theorem run_never_registers {S} (cls : DataAccess_class S) env self :
  raises (result (exec (environment cls env) Main.run self)) = true
  /\ called is_schedule (calls (exec (environment cls env) Main.run self)) = []
  /\ called is_today (calls (exec (environment cls env) Main.run self)) = []
  /\ called is_commit (calls (exec (environment cls env) Main.run self)) = [].
Proof.
  unfold Main.run, Main.setupPlan, perform. simpl.
  destruct (cls_getStatus cls self) as [[status | e] self1]; simpl;
    [| repeat split].
  destruct (truthy status); simpl; [repeat split |].
  destruct (convert env []) as [commit_plan | e]; simpl; [| repeat split].
  destruct (cls_createDict cls self1 commit_plan) as [[u | e] self2]; simpl;
    repeat split.
Qed.

(** The two ways [run] can go once [hasRun()] has answered. *)
Lemma after_bootstrap_skip {W} (h : handler W) w1 ran w2 :
  h (data_accesor m_hasRun []) w1 = (Returned ran, w2) ->
  truthy ran = true ->
  exec h after_bootstrap w1
  = Execution ((data_accesor m_hasRun [], Returned ran)
               :: calls (exec h registration w2))
              (result (exec h registration w2))
              (final (exec h registration w2)).
Proof.
  intros H2 T2. rewrite after_bootstrap_unfold. unfold perform at 1.
  cbn [bind exec]. rewrite H2, T2. reflexivity.
Qed.

Lemma after_bootstrap_catch_up {W} (h : handler W) w1 ran w2 :
  h (data_accesor m_hasRun []) w1 = (Returned ran, w2) ->
  truthy ran = false ->
  exec h after_bootstrap w1
  = match result (exec h Main._runCommit w2) with
    | Returned _ =>
        Execution ((data_accesor m_hasRun [], Returned ran)
                   :: calls (exec h Main._runCommit w2)
                   ++ calls (exec h registration (final (exec h Main._runCommit w2))))
                  (result (exec h registration (final (exec h Main._runCommit w2))))
                  (final (exec h registration (final (exec h Main._runCommit w2))))
    | Raised e =>
        Execution ((data_accesor m_hasRun [], Returned ran)
                   :: calls (exec h Main._runCommit w2))
                  (Raised e)
                  (final (exec h Main._runCommit w2))
    end.
Proof.
  intros H2 T2. rewrite after_bootstrap_unfold. unfold perform at 1.
  cbn [bind exec]. rewrite H2, T2. cbn [negb].
  rewrite (exec_bind h Main._runCommit (fun _ => registration) w2).
  destruct (result (exec h Main._runCommit w2)); reflexivity.
Qed.

(** X7. When [getStatus()] and then [hasRun()] answer true, [run] goes
    straight to the registration of the trigger: no clock read, no
    [commit], no [logRun]. *)
Theorem run_skips_catch_up {W} (h : handler W) w status w1 ran w2 :
  h (data_accesor m_getStatus []) w = (Returned status, w1) ->
  truthy status = true ->
  h (data_accesor m_hasRun []) w1 = (Returned ran, w2) ->
  truthy ran = true ->
  calls (exec h Main.run w)
  = (data_accesor m_getStatus [], Returned status)
    :: (data_accesor m_hasRun [], Returned ran)
    :: calls (exec h registration w2)
  /\ result (exec h Main.run w) = result (exec h registration w2)
  /\ called is_today (calls (exec h Main.run w)) = []
  /\ called is_commit (calls (exec h Main.run w)) = []
  /\ called is_logRun (calls (exec h Main.run w)) = [].
Proof.
  intros H1 T1 H2 T2.
  assert (E : exec h Main.run w
              = Execution ((data_accesor m_getStatus [], Returned status)
                           :: (data_accesor m_hasRun [], Returned ran)
                           :: calls (exec h registration w2))
                          (result (exec h registration w2))
                          (final (exec h registration w2))).
  { rewrite (run_initialized h w status w1 H1 T1).
    rewrite (after_bootstrap_skip h w1 ran w2 H2 T2). reflexivity. }
  rewrite E. cbn [calls result]. rewrite !called_cons.
  cbn [fst is_today is_commit is_logRun].
  repeat split; apply avoids_called; simpl; repeat split.
Qed.

Lemma run_skips_catch_up_witness :
  calls (exec (Mock.on true Scenario.jan1 Scenario.converts Scenario.succeeds)
              Main.run Scenario.fresh)
  = (data_accesor m_getStatus [], Returned (VBool true))
    :: (data_accesor m_hasRun [], Returned (VBool true))
    :: calls (exec (Mock.on true Scenario.jan1 Scenario.converts Scenario.succeeds)
                   registration Scenario.fresh)
  /\ result (exec (Mock.on true Scenario.jan1 Scenario.converts Scenario.succeeds)
                  Main.run Scenario.fresh)
     = result (exec (Mock.on true Scenario.jan1 Scenario.converts Scenario.succeeds)
                    registration Scenario.fresh)
  /\ called is_today
       (calls (exec (Mock.on true Scenario.jan1 Scenario.converts Scenario.succeeds)
                    Main.run Scenario.fresh)) = []
  /\ called is_commit
       (calls (exec (Mock.on true Scenario.jan1 Scenario.converts Scenario.succeeds)
                    Main.run Scenario.fresh)) = []
  /\ called is_logRun
       (calls (exec (Mock.on true Scenario.jan1 Scenario.converts Scenario.succeeds)
                    Main.run Scenario.fresh)) = [].
Proof.
  apply (run_skips_catch_up
           (Mock.on true Scenario.jan1 Scenario.converts Scenario.succeeds)
           Scenario.fresh (VBool true) Scenario.fresh (VBool true) Scenario.fresh);
    reflexivity.
Defined.

(** X8. When [getStatus()] answers true and [hasRun()] answers false,
    [run] executes [_runCommit] exactly once, at once, in the world
    [hasRun()] left; the registration of the trigger follows only if
    [_runCommit] returned, in the world it left, and an exception of
    [_runCommit] ends [run]. *)
Theorem run_catches_up_before_registration {W} (h : handler W) w status w1 ran w2 :
  h (data_accesor m_getStatus []) w = (Returned status, w1) ->
  truthy status = true ->
  h (data_accesor m_hasRun []) w1 = (Returned ran, w2) ->
  truthy ran = false ->
  exec h Main.run w
  = match result (exec h Main._runCommit w2) with
    | Returned _ =>
        Execution ((data_accesor m_getStatus [], Returned status)
                   :: (data_accesor m_hasRun [], Returned ran)
                   :: calls (exec h Main._runCommit w2)
                   ++ calls (exec h registration (final (exec h Main._runCommit w2))))
                  (result (exec h registration (final (exec h Main._runCommit w2))))
                  (final (exec h registration (final (exec h Main._runCommit w2))))
    | Raised e =>
        Execution ((data_accesor m_getStatus [], Returned status)
                   :: (data_accesor m_hasRun [], Returned ran)
                   :: calls (exec h Main._runCommit w2))
                  (Raised e)
                  (final (exec h Main._runCommit w2))
    end.
Proof.
  intros H1 T1 H2 T2.
  rewrite (run_initialized h w status w1 H1 T1).
  rewrite (after_bootstrap_catch_up h w1 ran w2 H2 T2).
  destruct (result (exec h Main._runCommit w2)); reflexivity.
Qed.

Lemma run_catches_up_before_registration_witness :
  exec (Mock.on false Scenario.jan1 Scenario.converts Scenario.succeeds)
       Main.run Scenario.fresh
  = match result (exec (Mock.on false Scenario.jan1 Scenario.converts Scenario.succeeds)
                       Main._runCommit Scenario.fresh) with
    | Returned _ =>
        Execution ((data_accesor m_getStatus [], Returned (VBool true))
                   :: (data_accesor m_hasRun [], Returned (VBool false))
                   :: calls (exec (Mock.on false Scenario.jan1 Scenario.converts
                                     Scenario.succeeds)
                                  Main._runCommit Scenario.fresh)
                   ++ calls (exec (Mock.on false Scenario.jan1 Scenario.converts
                                     Scenario.succeeds)
                                  registration
                                  (final (exec (Mock.on false Scenario.jan1
                                                  Scenario.converts Scenario.succeeds)
                                               Main._runCommit Scenario.fresh))))
                  (result (exec (Mock.on false Scenario.jan1 Scenario.converts
                                   Scenario.succeeds)
                                registration
                                (final (exec (Mock.on false Scenario.jan1
                                                Scenario.converts Scenario.succeeds)
                                             Main._runCommit Scenario.fresh))))
                  (final (exec (Mock.on false Scenario.jan1 Scenario.converts
                                  Scenario.succeeds)
                               registration
                               (final (exec (Mock.on false Scenario.jan1
                                               Scenario.converts Scenario.succeeds)
                                            Main._runCommit Scenario.fresh))))
    | Raised e =>
        Execution ((data_accesor m_getStatus [], Returned (VBool true))
                   :: (data_accesor m_hasRun [], Returned (VBool false))
                   :: calls (exec (Mock.on false Scenario.jan1 Scenario.converts
                                     Scenario.succeeds)
                                  Main._runCommit Scenario.fresh))
                  (Raised e)
                  (final (exec (Mock.on false Scenario.jan1 Scenario.converts
                                  Scenario.succeeds)
                               Main._runCommit Scenario.fresh))
    end.
Proof.
  apply (run_catches_up_before_registration
           (Mock.on false Scenario.jan1 Scenario.converts Scenario.succeeds)
           Scenario.fresh (VBool true) Scenario.fresh (VBool false) Scenario.fresh);
    reflexivity.
Defined.

(** ** [DataAccess], [IConverter] and [main] *)

Lemma DataAccess_invoke_unchanged m args self :
  snd (invoke DataAccess_stub m args self) = self.
Proof.
  destruct m, args as [| a [| b args]]; reflexivity.
Qed.

(** X9. [DataAccess] keeps nothing: after any sequence of calls of its
    methods (a plan created, dates logged) the instance is as [__init__]
    left it, and [getStatus()], [hasRun(d)] and [readDate(d)] still return
    [None], which [Main] reads as false. *)
Theorem DataAccess_keeps_nothing ops self d :
  invoke_all DataAccess_stub ops self = self
  /\ invoke DataAccess_stub m_getStatus [] (invoke_all DataAccess_stub ops self)
     = (Returned VNone, self)
  /\ invoke DataAccess_stub m_hasRun [d] (invoke_all DataAccess_stub ops self)
     = (Returned VNone, self)
  /\ invoke DataAccess_stub m_readDate [d] (invoke_all DataAccess_stub ops self)
     = (Returned VNone, self)
  /\ truthy VNone = false.
Proof.
  assert (E : invoke_all DataAccess_stub ops self = self).
  { revert self. induction ops as [| [m args] ops IH]; intros self; simpl.
    - reflexivity.
    - rewrite DataAccess_invoke_unchanged. apply IH. }
  rewrite E. repeat split.
Qed.

(** X10. [Main] wired to [DataAccess] as it is: every call of
    [_runCommit] reaches [commit], with [None] as the number of commits,
    and leaves the data accessor unchanged, so a second call on the same
    day commits again. *)
Theorem runCommit_with_DataAccess_commits_every_time env self :
  called is_commit (calls (exec (environment DataAccess_stub env) Main._runCommit self))
  = [(commiter_commit [VNone], commit env [VNone])]
  /\ final (exec (environment DataAccess_stub env) Main._runCommit self) = self
  /\ called is_commit
       (calls (exec (environment DataAccess_stub env) Main._runCommit
                 (final (exec (environment DataAccess_stub env) Main._runCommit self))))
     = [(commiter_commit [VNone], commit env [VNone])].
Proof.
  assert (E : forall s,
             called is_commit
               (calls (exec (environment DataAccess_stub env) Main._runCommit s))
             = [(commiter_commit [VNone], commit env [VNone])]
             /\ final (exec (environment DataAccess_stub env) Main._runCommit s) = s).
  { intros s. unfold Main._runCommit, perform. simpl.
    destruct (commit env [VNone]) as [r | e]; split; reflexivity. }
  destruct (E self) as [E1 E2]. rewrite E2.
  split; [exact E1 | split; [reflexivity | exact E1]].
Qed.

(** X11. [Main] wired to [DataAccess] as it is: [getStatus()] never
    reports a plan, so every start enters the bootstrap; started twice,
    [run] calls [convert] twice. *)
Theorem run_with_DataAccess_converts_every_start env self :
  called is_convert
    (calls (exec (environment DataAccess_stub env) Main.run self)
     ++ calls (exec (environment DataAccess_stub env) Main.run
                 (final (exec (environment DataAccess_stub env) Main.run self))))
  = [(converter_convert [], convert env []); (converter_convert [], convert env [])].
Proof.
  assert (E : forall s,
             called is_convert
               (calls (exec (environment DataAccess_stub env) Main.run s))
             = [(converter_convert [], convert env [])]).
  { intros s. unfold Main.run, Main.setupPlan, perform. simpl.
    destruct (convert env []) as [commit_plan | e]; reflexivity. }
  rewrite called_app, !E. reflexivity.
Qed.


(** [main()] builds [Main] without the three collaborators that
    [__init__] requires: it raises [TypeError] before [run] is entered, so
    no call is made and the world is left as it was. *)
Example main_raises_TypeError {W} (h : handler W) w :
  main h w = Execution [] (Raised TypeError) w
  /\ forall converter commiter data_accessor,
       Main__init__ [converter; commiter; data_accessor] = Returned VSelf.
Proof. split; reflexivity. Qed.
